(** * stock-price-api: the request pipeline of [main.py]

    A shallow embedding of the three FastAPI handlers of [main.py]
    ([read_root], [health_check], [get_stock_price]) together with the part
    of Python, of [json] and of FastAPI that the handlers rely on.

    - Python values decoded from JSON are the inductive type [pyval];
      truthiness, subscripting and [dict.get] follow Python.
    - Exceptions are values of type [exn]; a computation either returns or
      raises ([outcome]).
    - Logging and the call of the crawler are effects: a handler is a
      computation in the monad [M], which carries the list of [event]s
      performed so far next to the outcome.
    - The crawler (class [AsyncWebCrawler] of crawl4ai), [str.upper] and
      [json.loads] are not code of this program.  The crawler is an argument
      of the handlers; the two library functions are the fields of the class
      [Runtime].  Every theorem holds for all of them; [reference_runtime]
      is an executable instance. *)

From Stdlib Require Import String Ascii ZArith List Bool Lia DecimalString.
From Stdlib Require Import Floats.SpecFloat.
Import ListNotations.

Set Warnings "-register-all".

Local Open Scope list_scope.
Local Open Scope string_scope.
Local Open Scope Z_scope.

(** ** Characters and strings *)

(** The double quote, which cannot be written inside a string literal. *)
Definition dquote : string := String (ascii_of_nat 34) "".

(** The line feed. *)
Definition newline : string := String (ascii_of_nat 10) "".

(** [unlines] joins lines with a line feed, as they stand in a Python
    triple-quoted literal. *)
Definition unlines (ls : list string) : string := String.concat newline ls.

(** Python's [sub in s] on strings. *)
Fixpoint contains (sub s : string) : bool :=
  prefix sub s ||
  match s with
  | EmptyString => false
  | String _ rest => contains sub rest
  end.

(** A rendering of an integer in decimal, as an f-string prints it. *)
Definition str_int (n : Z) : string := NilZero.string_of_int (Z.to_int n).

(** ** Python values *)

(** The values [json.loads] produces.  A [str] is a Rocq string holding
    the text in UTF-8, a surrogate code point (which a Python [str] can
    hold, and [json.loads] returns for a lone escape such as \ud800) as
    its three bytes ED A0..BF 80..BF; a [float] is an IEEE 754 binary64
    number ([spec_float]); a [dict] keeps its items in insertion order. *)
Inductive pyval : Type :=
| PyNone
| PyBool (b : bool)
| PyInt (n : Z)
| PyFloat (f : spec_float)
| PyStr (s : string)
| PyList (l : list pyval)
| PyDict (d : list (string * pyval)).

(** [bool(v)]: the truth value that [if v] and [not v] test. *)
Definition truthy (v : pyval) : bool :=
  match v with
  | PyNone => false
  | PyBool b => b
  | PyInt n => negb (n =? 0)
  | PyFloat (S754_zero _) => false
  | PyFloat _ => true
  | PyStr s => negb (s =? "")%string
  | PyList [] => false
  | PyList (_ :: _) => true
  | PyDict [] => false
  | PyDict (_ :: _) => true
  end.

(** [type(v).__name__], which Python's error messages quote. *)
Definition type_name (v : pyval) : string :=
  match v with
  | PyNone => "NoneType"
  | PyBool _ => "bool"
  | PyInt _ => "int"
  | PyFloat _ => "float"
  | PyStr _ => "str"
  | PyList _ => "list"
  | PyDict _ => "dict"
  end.

(** ** Exceptions *)

(** The exceptions that can be raised while a request is handled.  Each
    one but [HTTPException] carries the text [str(e)] returns.
    [OtherError] stands for every other class that derives from [Exception]
    (time-outs, navigation and browser failures of the crawler, ...).
    The last three derive from [BaseException] only: a clause
    [except Exception] does not catch them. *)
Inductive exn : Type :=
| HTTPException (status_code : Z) (detail : string)
| JSONDecodeError (msg : string)
| IndexError (msg : string)
| KeyError (msg : string)
| TypeError (msg : string)
| AttributeError (msg : string)
| OtherError (msg : string)
| CancelledError (msg : string)
| KeyboardInterrupt (msg : string)
| SystemExit (msg : string).

(** [str(e)].  Starlette's [HTTPException.__str__] prints the status code,
    a colon and the detail. *)
Definition str (e : exn) : string :=
  match e with
  | HTTPException status_code detail => str_int status_code ++ ": " ++ detail
  | JSONDecodeError msg
  | IndexError msg
  | KeyError msg
  | TypeError msg
  | AttributeError msg
  | OtherError msg
  | CancelledError msg
  | KeyboardInterrupt msg
  | SystemExit msg => msg
  end.

(** [isinstance(e, Exception)] *)
Definition is_Exception (e : exn) : bool :=
  match e with
  | CancelledError _ | KeyboardInterrupt _ | SystemExit _ => false
  | _ => true
  end.

(** [isinstance(e, json.JSONDecodeError)] *)
Definition is_JSONDecodeError (e : exn) : bool :=
  match e with
  | JSONDecodeError _ => true
  | _ => false
  end.

(** A computation returns a value or raises. *)
Inductive outcome (A : Type) : Type :=
| Return (a : A)
| Raise (e : exn).

Arguments Return {A} a.
Arguments Raise {A} e.

(** ** Operations on values *)

(** The first character of a string held as UTF-8: its leading byte and the
    continuation bytes (10xxxxxx) that follow it. *)
Definition is_continuation (c : ascii) : bool :=
  let n := Z.of_nat (nat_of_ascii c) in (128 <=? n) && (n <? 192).

Fixpoint continuation_bytes (s : string) : string :=
  match s with
  | String c rest =>
      if is_continuation c then String c (continuation_bytes rest) else ""
  | EmptyString => ""
  end.

(** [v[0]] *)
Definition getitem0 (v : pyval) : outcome pyval :=
  match v with
  | PyList [] => Raise (IndexError "list index out of range")
  | PyList (x :: _) => Return x
  | PyStr EmptyString => Raise (IndexError "string index out of range")
  | PyStr (String c rest) => Return (PyStr (String c (continuation_bytes rest)))
  | PyDict _ => Raise (KeyError "0")
  | _ => Raise (TypeError ("'" ++ type_name v ++ "' object is not subscriptable"))
  end.

(** The lookup of a key among the items of a [dict]. *)
Fixpoint dict_lookup (d : list (string * pyval)) (key : string) : option pyval :=
  match d with
  | [] => None
  | (k, v) :: rest => if (k =? key)%string then Some v else dict_lookup rest key
  end.

(** [v.get(key, default)]: only a [dict] has the method. *)
Definition get (v : pyval) (key : string) (default : pyval) : outcome pyval :=
  match v with
  | PyDict d =>
      match dict_lookup d key with
      | Some x => Return x
      | None => Return default
      end
  | _ => Raise (AttributeError ("'" ++ type_name v ++ "' object has no attribute 'get'"))
  end.

(** Whether a string holds a surrogate code point: the byte ED followed by
    a byte from A0 to BF (in well-formed UTF-8 the byte ED is followed by
    80..9F). *)
Fixpoint has_surrogate (s : string) : bool :=
  match s with
  | String a (String b _ as rest) =>
      ((nat_of_ascii a =? 237)%nat
       && (160 <=? nat_of_ascii b)%nat && (nat_of_ascii b <=? 191)%nat)
      || has_surrogate rest
  | _ => false
  end.

(** Whether Starlette's [JSONResponse] renders a value:
    [json.dumps(v, ensure_ascii=False, allow_nan=False).encode("utf-8")]
    raises on a float that is not finite and on a string, a key included,
    that holds a surrogate. *)
Fixpoint renders (v : pyval) : bool :=
  match v with
  | PyNone | PyBool _ | PyInt _ => true
  | PyStr s => negb (has_surrogate s)
  | PyFloat (S754_zero _) | PyFloat (S754_finite _ _ _) => true
  | PyFloat _ => false
  | PyList l => forallb renders l
  | PyDict d =>
      forallb (fun kv : string * pyval =>
                 let (k, x) := kv in negb (has_surrogate k) && renders x) d
  end.

(** ** The crawler's interface (crawl4ai) *)

(** [BrowserConfig(...)], with the keyword arguments [main.py] passes. *)
Record BrowserConfig : Type := {
  headless : bool;
  user_agent_mode : string;
  text_mode : bool;
  light_mode : bool
}.

Inductive ExtractionStrategy : Type :=
| JsonCssExtractionStrategy (schema : pyval).

Inductive ScrapingStrategy : Type :=
| LXMLWebScrapingStrategy.

(** [CrawlerRunConfig(...)], with the keyword arguments [main.py] passes. *)
Record CrawlerRunConfig : Type := {
  exclude_external_links : bool;
  remove_overlay_elements : bool;
  extraction_strategy : ExtractionStrategy;
  scraping_strategy : ScrapingStrategy;
  js_code : string;
  wait_for : string
}.

(** The result of [arun]; [extracted_content] is an [Optional[str]]. *)
Record CrawlResult : Type := {
  extracted_content : option string
}.

(** The crawler: what a session opened with a browser configuration and
    run on a URL yields, a result or an exception.  An exception raised
    while the session is opened or closed reaches the [except] clauses like
    one raised by [arun]; closing a session that worked returns normally
    and suppresses nothing. *)
Definition Crawler : Type :=
  BrowserConfig -> CrawlerRunConfig -> string -> outcome CrawlResult.

(** ** Effects *)

Inductive event : Type :=
| LogInfo (msg : string)
| LogError (msg : string)
| Arun (browser : BrowserConfig) (config : CrawlerRunConfig) (url : string).

(** A handler's computation: the events performed, in order, and the
    outcome. *)
Definition M (A : Type) : Type := list event * outcome A.

Definition ret {A} (a : A) : M A := ([], Return a).

Definition raise {A} (e : exn) : M A := ([], Raise e).

Definition bind {A B} (m : M A) (k : A -> M B) : M B :=
  match m with
  | (t, Return a) => let (t', r) := k a in ((t ++ t')%list, r)
  | (t, Raise e) => (t, Raise e)
  end.

(** [try: m  except ... as e: h e] -- the events of [m] stay; [h] tries the
    [except] clauses and raises again what none of them catches. *)
Definition try_except {A} (m : M A) (h : exn -> M A) : M A :=
  match m with
  | (t, Return a) => (t, Return a)
  | (t, Raise e) => let (t', r) := h e in ((t ++ t')%list, r)
  end.

Definition lift {A} (o : outcome A) : M A := ([], o).

Definition logger_info (msg : string) : M unit := ([LogInfo msg], Return tt).

Definition logger_error (msg : string) : M unit := ([LogError msg], Return tt).

(** [async with AsyncWebCrawler(config=browser) as crawler:
       await crawler.arun(config=config, url=url)] *)
Definition arun (crawler : Crawler)
    (browser : BrowserConfig) (config : CrawlerRunConfig) (url : string)
  : M CrawlResult :=
  ([Arun browser config url], crawler browser config url).

Definition trace {A} (m : M A) : list event := fst m.

Definition result {A} (m : M A) : outcome A := snd m.

Declare Scope py_scope.
Delimit Scope py_scope with py.
Notation "x <- m ;; k" := (bind m (fun x => k))
  (at level 61, m at next level, right associativity) : py_scope.
Notation "m ;; k" := (bind m (fun _ => k))
  (at level 61, right associativity) : py_scope.
Local Open Scope py_scope.

(** ** Library functions the handlers call *)

(** [str.upper] and [json.loads].  [json_loads s] returns the decoded value
    or raises, a [JSONDecodeError] when [s] is not a JSON document. *)
Class Runtime : Type := {
  str_upper : string -> string;
  json_loads : string -> outcome pyval
}.

(** ** [main.py] *)

(** The locals [schema], [browser_config], [click_cookie_button_js] and
    [config] of [get_stock_price]; none of them mentions [symbol]. *)
Definition schema : pyval :=
  PyDict [
    ("baseSelector", PyStr "div.container.yf-16vvaki");
    ("fields", PyList [
      PyDict [
        ("name", PyStr "price");
        ("selector", PyStr "span");
        ("type", PyStr "text")
      ]
    ])
  ].

Definition browser_config : BrowserConfig := {|
  headless := true;
  user_agent_mode := "random";
  text_mode := true;
  light_mode := true
|}.

Definition click_cookie_button_js : string :=
  unlines [
    "";
    "    (function() {";
    "        const acceptButton = document.querySelector('button.accept-all');";
    "        if (acceptButton) {";
    "            acceptButton.click();";
    "            console.log('Clicked cookie accept button.');";
    "        } else {";
    "            console.log('Cookie accept button not found using selector "
      ++ dquote ++ "button.accept-all" ++ dquote ++ ".');";
    "        }";
    "    })();";
    "    "
  ].

Definition config : CrawlerRunConfig := {|
  exclude_external_links := true;
  remove_overlay_elements := true;
  extraction_strategy := JsonCssExtractionStrategy schema;
  scraping_strategy := LXMLWebScrapingStrategy;
  js_code := click_cookie_button_js;
  wait_for := "css:body"
|}.

(** [f"https://finance.yahoo.com/quote/{symbol}/"] *)
Definition yahoo_finance_url (symbol : string) : string :=
  "https://finance.yahoo.com/quote/" ++ symbol ++ "/".

(** How an f-string prints an [Optional[str]]. *)
Definition format_content (c : option string) : string :=
  match c with
  | Some s => s
  | None => "None"
  end.

Section Handlers.

Context {rt : Runtime}.
Variable crawler : Crawler.

(** [@app.get("/")] *)
Definition read_root : M pyval :=
  ret (PyDict [("message",
    PyStr "Welcome to the Real-Time Stock Price API. Use /stock/{symbol} to get prices.")]).

(** [@app.get("/health")] *)
Definition health_check : M pyval :=
  ret (PyDict [("status", PyStr "healthy")]).

(** [data[0].get("price", None) if data else None] *)
Definition first_price (data : pyval) : outcome pyval :=
  if truthy data then
    match getitem0 data with
    | Return first => get first "price" PyNone
    | Raise e => Raise e
    end
  else Return PyNone.

(** The body of the [try] statement of [get_stock_price].
    [not result.extracted_content] holds of [None] and of the empty
    string. *)
Definition scrape (symbol : string) : M pyval :=
  result <- arun crawler browser_config config (yahoo_finance_url symbol) ;;
  logger_info ("Raw extracted content: " ++ format_content (extracted_content result)) ;;
  match extracted_content result with
  | None | Some EmptyString =>
      logger_error "No extracted content found." ;;
      raise (HTTPException 404 "Price not found for the given symbol.")
  | Some content =>
      data <- lift (json_loads content) ;;
      price <- lift (first_price data) ;;
      if negb (truthy price) then
        logger_error "Price not found in extracted data." ;;
        raise (HTTPException 404 "Price not found in the extracted data.")
      else
        ret (PyDict [("symbol", PyStr symbol); ("price", price)])
  end.

(** The [except] clauses of [get_stock_price], tried in order:
    [except json.JSONDecodeError as e], then [except Exception as e].  An
    exception that is an instance of neither goes on as it is. *)
Definition on_exception (e : exn) : M pyval :=
  if is_JSONDecodeError e then
    logger_error ("JSON decoding error: " ++ str e) ;;
    raise (HTTPException 500 ("Failed to parse extracted data: " ++ str e))
  else if is_Exception e then
    logger_error ("Error during crawl: " ++ str e) ;;
    raise (HTTPException 500 ("Error fetching stock price: " ++ str e))
  else
    raise e.

(** [@app.get("/stock/{symbol}")] *)
Definition get_stock_price (symbol : string) : M pyval :=
  let symbol := str_upper symbol in
  logger_info ("Attempting to crawl: " ++ yahoo_finance_url symbol) ;;
  try_except (scrape symbol) on_exception.

(** ** FastAPI *)

(** The three routes, all [GET]. *)
Inductive Request : Type :=
| GET_root
| GET_health
| GET_stock (symbol : string).

Inductive Response : Type :=
| JSONResponse (status_code : Z) (content : pyval)
| PlainTextResponse (status_code : Z) (content : string).

(** The routing table built by the [@app.get] decorators. *)
Definition route (req : Request) : M pyval :=
  match req with
  | GET_root => read_root
  | GET_health => health_check
  | GET_stock symbol => get_stock_price symbol
  end.

(** What the client is sent for the outcome of a handler: the returned
    value as JSON with status 200; for an [HTTPException] its status code
    and the body [{"detail": detail}]; for an exception no handler is
    registered for -- one the handler lets through, or the one raised when
    the returned value cannot be rendered -- the plain text
    "Internal Server Error" with status 500 (from Starlette's server-error
    middleware for an [Exception], from the server itself for the
    others). *)
Definition respond (o : outcome pyval) : Response :=
  match o with
  | Return v =>
      if renders v then JSONResponse 200 v
      else PlainTextResponse 500 "Internal Server Error"
  | Raise (HTTPException status_code detail) =>
      JSONResponse status_code (PyDict [("detail", PyStr detail)])
  | Raise _ => PlainTextResponse 500 "Internal Server Error"
  end.

(** The application: the events of the handler and the response sent. *)
Definition app (req : Request) : list event * Response :=
  let m := route req in (trace m, respond (result m)).

End Handlers.

Definition response_of (x : list event * Response) : Response := snd x.

Definition status (r : Response) : Z :=
  match r with
  | JSONResponse status_code _ => status_code
  | PlainTextResponse status_code _ => status_code
  end.

(** The member [key] of a JSON object body. *)
Definition body_field (r : Response) (key : string) : option pyval :=
  match r with
  | JSONResponse _ (PyDict d) => dict_lookup d key
  | _ => None
  end.

(** The [detail] string of an error response. *)
Definition detail_of (r : Response) : option string :=
  match body_field r "detail" with
  | Some (PyStr s) => Some s
  | _ => None
  end.

(** The crawler calls and the error-level log lines of a trace. *)
Definition crawler_calls (t : list event) : list event :=
  filter (fun ev => match ev with Arun _ _ _ => true | _ => false end) t.

Definition error_log (t : list event) : list string :=
  flat_map (fun ev => match ev with LogError msg => [msg] | _ => [] end) t.

(** ** A reference runtime

    An executable [Runtime]: [str.upper] on ASCII letters and a decoder
    for JSON documents that follows the scanner of CPython's [json]
    module (positions count bytes of the UTF-8 text). *)

Module Reference.

Definition upper_char (c : ascii) : ascii :=
  let n := nat_of_ascii c in
  if ((97 <=? n) && (n <=? 122))%nat then ascii_of_nat (n - 32) else c.

(** [str.upper] on ASCII text; other bytes are left as they are. *)
Fixpoint upper (s : string) : string :=
  match s with
  | EmptyString => EmptyString
  | String c rest => String (upper_char c) (upper rest)
  end.

(** The outcome of scanning a prefix of the document: the value, the text
    left and the index reached, or the error and the index it is at. *)
Inductive scanned (A : Type) : Type :=
| Scanned (a : A) (rest : string) (end_ : nat)
| Malformed (msg : string) (pos : nat).

Arguments Scanned {A} a rest end_.
Arguments Malformed {A} msg pos.

Definition is_ws (c : ascii) : bool :=
  ((c =? " ") || (c =? "009") || (c =? "010") || (c =? "013"))%char.

Definition is_digit (c : ascii) : bool :=
  let n := nat_of_ascii c in ((48 <=? n) && (n <=? 57))%nat.

Definition digit_value (c : ascii) : Z := Z.of_nat (nat_of_ascii c) - 48.

(** The value of a hexadecimal digit. *)
Definition hex_value (c : ascii) : option Z :=
  let n := Z.of_nat (nat_of_ascii c) in
  if (48 <=? n) && (n <=? 57) then Some (n - 48)
  else if (65 <=? n) && (n <=? 70) then Some (n - 55)
  else if (97 <=? n) && (n <=? 102) then Some (n - 87)
  else None.

Fixpoint skip_ws (s : string) (pos : nat) : string * nat :=
  match s with
  | String c rest => if is_ws c then skip_ws rest (S pos) else (s, pos)
  | EmptyString => (s, pos)
  end.

(** Whether [s] starts with [p], and what follows. *)
Fixpoint strip_prefix (p s : string) : option string :=
  match p, s with
  | EmptyString, _ => Some s
  | String a p', String b s' => if (a =? b)%char then strip_prefix p' s' else None
  | String _ _, EmptyString => None
  end.

(** *** Numbers *)

(** The longest run of digits at the head of [s], read in base ten on top
    of [acc]: its value, its length and the text left. *)
Fixpoint digits (s : string) (acc : Z) (n : nat) : Z * nat * string :=
  match s with
  | String c rest =>
      if is_digit c then digits rest (10 * acc + digit_value c) (S n)
      else (acc, n, s)
  | EmptyString => (acc, n, s)
  end.

Definition prec : Z := 53.
Definition emax : Z := 1024.

(** The binary64 number nearest to [m * 10 ^ e] (ties to even), [m > 0]
    having [len] decimal digits at most.  A negative exponent divides: the
    quotient is taken with 64 bits to spare and a sticky bit below. *)
Definition float_of_decimal (neg : bool) (m : Z) (len : nat) (e : Z) : spec_float :=
  if m =? 0 then S754_zero neg
  else if 310 <? e + 1 then S754_infinity neg
  else if e + Z.of_nat len <? -330 then S754_zero neg
  else
    let sm := if neg then - m else m in
    if 0 <=? e then binary_normalize prec emax (sm * 10 ^ e) 0 neg
    else
      let d := 10 ^ (- e) in
      let s := Z.log2 d + 65 in
      let q := (m * 2 ^ s) / d in
      let sticky := if (m * 2 ^ s) mod d =? 0 then 0 else 1 in
      let q' := 2 * q + sticky in
      binary_normalize prec emax (if neg then - q' else q') (- s - 1) neg.

(** The fraction [.ddd] of a number, if one follows. *)
Definition scan_frac (s : string) : option (Z * nat * string) :=
  match s with
  | String "." (String c _ as rest) =>
      if is_digit c then Some (digits rest 0 0%nat) else None
  | _ => None
  end.

(** The exponent [e+dd], if one follows: its value, its length in
    characters and the text left. *)
Definition scan_exp (s : string) : option (Z * nat * string) :=
  match s with
  | String c rest =>
      if ((c =? "e") || (c =? "E"))%char then
        match rest with
        | String sign (String d _ as rest') =>
            if ((sign =? "+") || (sign =? "-"))%char then
              if is_digit d then
                let '(v, n, rest'') := digits rest' 0 0%nat in
                Some (if (sign =? "-")%char then - v else v, (2 + n)%nat, rest'')
              else None
            else if is_digit sign then
              let '(v, n, rest'') := digits rest 0 0%nat in
              Some (v, (1 + n)%nat, rest'')
            else None
        | String d EmptyString =>
            if is_digit d then Some (digit_value d, 2%nat, EmptyString) else None
        | EmptyString => None
        end
      else None
  | EmptyString => None
  end.

(** The integer part [0] or [d ddd] with [d] not zero. *)
Definition scan_int (s : string) : option (Z * nat * string) :=
  match s with
  | String c rest =>
      if (c =? "0")%char then Some (0, 1%nat, rest)
      else if is_digit c then Some (digits s 0 0%nat)
      else None
  | EmptyString => None
  end.

(** A JSON number at the head of [s], or nothing. *)
Definition scan_number (s : string) (pos : nat) : option (pyval * string * nat) :=
  let '(neg, s1, p1) :=
    match s with
    | String "-" rest => (true, rest, S pos)
    | _ => (false, s, pos)
    end in
  match scan_int s1 with
  | None => None
  | Some (i, ni, s2) =>
      let p2 := (p1 + ni)%nat in
      let '(f, nf, s3, p3) :=
        match scan_frac s2 with
        | Some (f, nf, s3) => (Some f, nf, s3, (p2 + 1 + nf)%nat)
        | None => (None, 0%nat, s2, p2)
        end in
      let '(x, s4, p4) :=
        match scan_exp s3 with
        | Some (x, nx, s4) => (Some x, s4, (p3 + nx)%nat)
        | None => (None, s3, p3)
        end in
      match f, x with
      | None, None => Some (PyInt (if neg then - i else i), s4, p4)
      | _, _ =>
          let frac := match f with Some v => v | None => 0 end in
          let ex := match x with Some v => v | None => 0 end in
          let m := i * 10 ^ Z.of_nat nf + frac in
          Some (PyFloat (float_of_decimal neg m (ni + nf) (ex - Z.of_nat nf)), s4, p4)
      end
  end.

(** *** Strings *)

Definition byte (n : Z) : ascii := ascii_of_nat (Z.to_nat n).

(** The UTF-8 encoding of a code point. *)
Definition utf8 (cp : Z) : string :=
  if cp <? 128 then String (byte cp) ""
  else if cp <? 2048 then
    String (byte (192 + cp / 64)) (String (byte (128 + cp mod 64)) "")
  else if cp <? 65536 then
    String (byte (224 + cp / 4096))
      (String (byte (128 + (cp / 64) mod 64)) (String (byte (128 + cp mod 64)) ""))
  else
    String (byte (240 + cp / 262144))
      (String (byte (128 + (cp / 4096) mod 64))
        (String (byte (128 + (cp / 64) mod 64)) (String (byte (128 + cp mod 64)) ""))).

(** Four hexadecimal digits at the head of [s]. *)
Definition hex4 (s : string) : option (Z * string) :=
  match s with
  | String a (String b (String c (String d rest))) =>
      match hex_value a, hex_value b, hex_value c, hex_value d with
      | Some x, Some y, Some z, Some w => Some (((x * 16 + y) * 16 + z) * 16 + w, rest)
      | _, _, _, _ => None
      end
  | _ => None
  end.

(** The character a one-letter escape stands for. *)
Definition unescape (c : ascii) : option ascii :=
  if (c =? "034")%char then Some "034"%char
  else if (c =? "\")%char then Some "\"%char
  else if (c =? "/")%char then Some "/"%char
  else if (c =? "b")%char then Some "008"%char
  else if (c =? "f")%char then Some "012"%char
  else if (c =? "n")%char then Some "010"%char
  else if (c =? "r")%char then Some "013"%char
  else if (c =? "t")%char then Some "009"%char
  else None.

(** [scanstring]: the text of a string literal whose opening quote, at
    index [begin], has been read.  [acc] is what has been decoded. *)
Fixpoint scanstring (fuel : nat) (begin : nat) (acc : string) (s : string) (pos : nat)
  : scanned string :=
  match fuel with
  | O => Malformed "Unterminated string starting at" begin
  | S fuel' =>
      match s with
      | EmptyString => Malformed "Unterminated string starting at" begin
      | String c rest =>
          if (c =? "034")%char then Scanned acc rest (S pos)
          else if (c =? "\")%char then
            match rest with
            | EmptyString => Malformed "Unterminated string starting at" begin
            | String esc rest' =>
                if (esc =? "u")%char then
                  match hex4 rest' with
                  | None => Malformed "Invalid \uXXXX escape" (S pos)
                  | Some (hi, rest'') =>
                      let pair :=
                        if (55296 <=? hi) && (hi <=? 56319) then
                          match rest'' with
                          | String "\" (String "u" low) =>
                              match hex4 low with
                              | Some (lo, rest3) =>
                                  if (56320 <=? lo) && (lo <=? 57343) then
                                    Some (65536 + (hi - 55296) * 1024 + (lo - 56320), rest3)
                                  else None
                              | None => None
                              end
                          | _ => None
                          end
                        else None in
                      match pair with
                      | Some (cp, rest3) =>
                          scanstring fuel' begin (acc ++ utf8 cp) rest3 (pos + 12)
                      | None =>
                          scanstring fuel' begin (acc ++ utf8 hi) rest'' (pos + 6)
                      end
                  end
                else
                  match unescape esc with
                  | Some ch =>
                      scanstring fuel' begin (acc ++ String ch "") rest' (pos + 2)
                  | None => Malformed "Invalid \escape" pos
                  end
            end
          else if (nat_of_ascii c <? 32)%nat then
            Malformed "Invalid control character at" pos
          else scanstring fuel' begin (acc ++ String c "") rest (S pos)
      end
  end.

(** [dict(pairs)]: a later pair with the same key replaces the value and
    keeps the place of the first. *)
Fixpoint dict_set (d : list (string * pyval)) (key : string) (v : pyval)
  : list (string * pyval) :=
  match d with
  | [] => [(key, v)]
  | (k, x) :: rest =>
      if (k =? key)%string then (k, v) :: rest else (k, x) :: dict_set rest key v
  end.

(** *** Values *)

(** [scan_once]: the value at the head of [s].  [array_items] and
    [object_items] are the loops of [JSONArray] and [JSONObject], entered
    where an element, respectively the text of a key, starts. *)
Fixpoint scan_once (fuel : nat) (s : string) (pos : nat) {struct fuel} : scanned pyval :=
  match fuel with
  | O => Malformed "Expecting value" pos
  | S fuel' =>
      match s with
      | EmptyString => Malformed "Expecting value" pos
      | String c rest =>
          if (c =? "034")%char then
            match scanstring (String.length rest) pos "" rest (S pos) with
            | Scanned str rest' end_ => Scanned (PyStr str) rest' end_
            | Malformed msg p => Malformed msg p
            end
          else if (c =? "{")%char then
            let '(s1, p1) := skip_ws rest (S pos) in
            match s1 with
            | String "}" rest' => Scanned (PyDict []) rest' (S p1)
            | String "034" rest' => object_items fuel' [] rest' p1
            | _ => Malformed "Expecting property name enclosed in double quotes" p1
            end
          else if (c =? "[")%char then
            let '(s1, p1) := skip_ws rest (S pos) in
            match s1 with
            | String "]" rest' => Scanned (PyList []) rest' (S p1)
            | _ => array_items fuel' [] s1 p1
            end
          else
            match strip_prefix "null" s, strip_prefix "true" s, strip_prefix "false" s with
            | Some rest', _, _ => Scanned PyNone rest' (pos + 4)
            | _, Some rest', _ => Scanned (PyBool true) rest' (pos + 4)
            | _, _, Some rest' => Scanned (PyBool false) rest' (pos + 5)
            | None, None, None =>
                match scan_number s pos with
                | Some (v, rest', end_) => Scanned v rest' end_
                | None =>
                    match strip_prefix "NaN" s, strip_prefix "Infinity" s,
                          strip_prefix "-Infinity" s with
                    | Some rest', _, _ => Scanned (PyFloat S754_nan) rest' (pos + 3)
                    | _, Some rest', _ =>
                        Scanned (PyFloat (S754_infinity false)) rest' (pos + 8)
                    | _, _, Some rest' =>
                        Scanned (PyFloat (S754_infinity true)) rest' (pos + 9)
                    | None, None, None => Malformed "Expecting value" pos
                    end
                end
            end
      end
  end

with array_items (fuel : nat) (acc : list pyval) (s : string) (pos : nat)
  {struct fuel} : scanned pyval :=
  match fuel with
  | O => Malformed "Expecting value" pos
  | S fuel' =>
      match scan_once fuel' s pos with
      | Malformed msg p => Malformed msg p
      | Scanned v s1 p1 =>
          let '(s2, p2) := skip_ws s1 p1 in
          match s2 with
          | String "]" rest => Scanned (PyList (rev (v :: acc))) rest (S p2)
          | String "," rest =>
              let '(s3, p3) := skip_ws rest (S p2) in
              array_items fuel' (v :: acc) s3 p3
          | _ => Malformed "Expecting ',' delimiter" p2
          end
      end
  end

with object_items (fuel : nat) (acc : list (string * pyval)) (s : string) (pos : nat)
  {struct fuel} : scanned pyval :=
  match fuel with
  | O => Malformed "Expecting value" pos
  | S fuel' =>
      match scanstring (String.length s) pos "" s (S pos) with
      | Malformed msg p => Malformed msg p
      | Scanned key s1 p1 =>
          let '(s2, p2) := skip_ws s1 p1 in
          match s2 with
          | String ":" rest =>
              let '(s3, p3) := skip_ws rest (S p2) in
              match scan_once fuel' s3 p3 with
              | Malformed msg p => Malformed msg p
              | Scanned v s4 p4 =>
                  let '(s5, p5) := skip_ws s4 p4 in
                  match s5 with
                  | String "}" rest' => Scanned (PyDict (dict_set acc key v)) rest' (S p5)
                  | String "," rest' =>
                      let '(s6, p6) := skip_ws rest' (S p5) in
                      match s6 with
                      | String "034" rest'' =>
                          object_items fuel' (dict_set acc key v) rest'' p6
                      | _ =>
                          Malformed "Expecting property name enclosed in double quotes" p6
                      end
                  | _ => Malformed "Expecting ',' delimiter" p5
                  end
              end
          | _ => Malformed "Expecting ':' delimiter" p2
          end
      end
  end.

(** *** Documents *)

(** The line and the column (both from 1) of index [pos] of [doc]. *)
Fixpoint line_column (doc : string) (pos : nat) (line col : Z) : Z * Z :=
  match pos, doc with
  | S pos', String c rest =>
      if (c =? "010")%char then line_column rest pos' (line + 1) 1
      else line_column rest pos' line (col + 1)
  | _, _ => (line, col)
  end.

(** The message of [JSONDecodeError(msg, doc, pos)]. *)
Definition errmsg (msg doc : string) (pos : nat) : string :=
  let '(line, col) := line_column doc pos 1 1 in
  msg ++ ": line " ++ str_int line ++ " column " ++ str_int col
      ++ " (char " ++ str_int (Z.of_nat pos) ++ ")".

(** The byte order mark, which [json.loads] refuses. *)
Definition bom : string := utf8 65279.

(** [json.loads]: one value between white space, and nothing after it. *)
Definition loads (doc : string) : outcome pyval :=
  if prefix bom doc then
    Raise (JSONDecodeError (errmsg "Unexpected UTF-8 BOM (decode using utf-8-sig)" doc 0))
  else
    let '(s, pos) := skip_ws doc 0 in
    match scan_once (2 * String.length doc + 2) s pos with
    | Malformed msg p => Raise (JSONDecodeError (errmsg msg doc p))
    | Scanned v rest end_ =>
        match skip_ws rest end_ with
        | (EmptyString, _) => Return v
        | (_, p) => Raise (JSONDecodeError (errmsg "Extra data" doc p))
        end
    end.

End Reference.

#[export] Instance reference_runtime : Runtime := {|
  str_upper := Reference.upper;
  json_loads := Reference.loads
|}.

(** Crawlers for the examples: one that returns a given content whatever
    it is asked, one that fails with a given exception. *)
Definition returning (content : option string) : Crawler :=
  fun _ _ _ => Return {| extracted_content := content |}.

Definition failing (e : exn) : Crawler :=
  fun _ _ _ => Raise e.

(** ** Runs and sample contents *)

(** The two events every request for a quote starts with. *)
Definition prologue {rt : Runtime} (symbol : string) : list event :=
  [LogInfo ("Attempting to crawl: " ++ yahoo_finance_url (str_upper symbol));
   Arun browser_config config (yahoo_finance_url (str_upper symbol))].

(** The shape of a run of [get_stock_price]: the events before the
    outcome is decided, and the outcome: a quote, a 500, or an exception
    that [except Exception] does not catch. *)
Inductive run_of {rt : Runtime} (symbol : string) : M pyval -> Prop :=
| run_quote (info : list string) (price : pyval) :
    truthy price = true ->
    run_of symbol
      ((LogInfo ("Attempting to crawl: " ++ yahoo_finance_url (str_upper symbol))
        :: Arun browser_config config (yahoo_finance_url (str_upper symbol))
        :: map LogInfo info)%list,
       Return (PyDict [("symbol", PyStr (str_upper symbol)); ("price", price)]))
| run_error (info errors : list string) (detail : string) :
    run_of symbol
      ((LogInfo ("Attempting to crawl: " ++ yahoo_finance_url (str_upper symbol))
        :: Arun browser_config config (yahoo_finance_url (str_upper symbol))
        :: map LogInfo info ++ map LogError errors)%list,
       Raise (HTTPException 500 detail))
| run_escape (info : list string) (e : exn) :
    is_Exception e = false ->
    run_of symbol
      ((LogInfo ("Attempting to crawl: " ++ yahoo_finance_url (str_upper symbol))
        :: Arun browser_config config (yahoo_finance_url (str_upper symbol))
        :: map LogInfo info)%list,
       Raise e).


(** The configurations handed to the crawler in a trace: the browser
    configuration and the run configuration of each call. *)
Definition configuration (ev : event) : list (BrowserConfig * CrawlerRunConfig) :=
  match ev with
  | Arun browser config _ => [(browser, config)]
  | _ => []
  end.

Definition configurations (t : list event) : list (BrowserConfig * CrawlerRunConfig) :=
  flat_map configuration (crawler_calls t).

(** The JSON text [[{"price": "189.50"}]]. *)
Definition msft_content : string :=
  "[{" ++ dquote ++ "price" ++ dquote ++ ": " ++ dquote ++ "189.50" ++ dquote ++ "}]".

(** The JSON text [[{"price": NaN}]], which [json.loads] accepts. *)
Definition nan_price_content : string :=
  "[{" ++ dquote ++ "price" ++ dquote ++ ": NaN}]".

(** The JSON text [[{"price": ""}]]. *)
Definition empty_price_content : string :=
  "[{" ++ dquote ++ "price" ++ dquote ++ ": " ++ dquote ++ dquote ++ "}]".

(** The JSON text [[{"price": "\ud800"}]], whose price decodes to a lone
    surrogate. *)
Definition surrogate_price_content : string :=
  "[{" ++ dquote ++ "price" ++ dquote ++ ": " ++ dquote ++ "\ud800" ++ dquote ++ "}]".

(** The JSON text [{"price": "189.50"}]: an object where an array is
    expected. *)
Definition object_content : string :=
  "{" ++ dquote ++ "price" ++ dquote ++ ": " ++ dquote ++ "189.50" ++ dquote ++ "}".

(** The JSON text [[{"currency": "USD", "price": 189}, "ignored"]]. *)
Definition mixed_content : string :=
  "[{" ++ dquote ++ "currency" ++ dquote ++ ": " ++ dquote ++ "USD" ++ dquote ++ ", "
    ++ dquote ++ "price" ++ dquote ++ ": 189}, " ++ dquote ++ "ignored" ++ dquote ++ "]".

(** * Properties *)

(** ** Strings *)

Lemma prefix_append (m q : string) : prefix m (m ++ q) = true.
Proof.
  induction m as [|a m IH]; simpl.
  - destruct q; reflexivity.
  - destruct (ascii_dec a a) as [_|ne]; [exact IH | now elim ne].
Qed.

Lemma contains_prefix (m s : string) : prefix m s = true -> contains m s = true.
Proof. intros H. destruct s; cbn [contains]; rewrite H; reflexivity. Qed.

Lemma contains_append (p m q : string) : contains m (p ++ m ++ q) = true.
Proof.
  induction p as [|a p IH].
  - change ("" ++ m ++ q) with (m ++ q).
    apply contains_prefix, prefix_append.
  - change (String a p ++ m ++ q) with (String a (p ++ m ++ q)).
    cbn [contains]. rewrite IH. apply orb_true_r.
Qed.

Lemma append_empty_r (m : string) : m ++ "" = m.
Proof. induction m as [|a m IH]; simpl; congruence. Qed.

Lemma contains_suffix (p m : string) : contains m (p ++ m) = true.
Proof.
  pose proof (contains_append p m "") as H.
  now rewrite append_empty_r in H.
Qed.

(** ** The monad *)

Lemma bind_ret {A B} (a : A) (k : A -> M B) : bind (ret a) k = k a.
Proof. unfold bind, ret. destruct (k a). reflexivity. Qed.

Lemma bind_raise {A B} (e : exn) (k : A -> M B) : bind (raise e) k = raise e.
Proof. reflexivity. Qed.

Lemma trace_bind {A B} (m : M A) (k : A -> M B) :
  trace (bind m k) =
  match result m with
  | Return a => (trace m ++ trace (k a))%list
  | Raise _ => trace m
  end.
Proof.
  destruct m as [t [a|e]]; simpl; [destruct (k a)|]; reflexivity.
Qed.

Lemma trace_try_except {A} (m : M A) (h : exn -> M A) :
  trace (try_except m h) =
  match result m with
  | Return _ => trace m
  | Raise e => (trace m ++ trace (h e))%list
  end.
Proof.
  destruct m as [t [a|e]]; simpl; [|destruct (h e)]; reflexivity.
Qed.

Lemma result_try_except {A} (m : M A) (h : exn -> M A) :
  result (try_except m h) =
  match result m with
  | Return a => Return a
  | Raise e => result (h e)
  end.
Proof.
  destruct m as [t [a|e]]; simpl; [|destruct (h e)]; reflexivity.
Qed.

(** ** The handler, case by case *)

Section Pipeline.

Context {rt : Runtime}.
Variable crawler : Crawler.
Variable symbol : string.

(** The crawler raises [e]: the matching [except] clause answers. *)
Lemma get_stock_price_crawler_raises (e : exn) :
  crawler browser_config config (yahoo_finance_url (str_upper symbol)) = Raise e ->
  get_stock_price crawler symbol =
    ((prologue symbol ++ trace (on_exception e))%list, result (on_exception e)).
Proof.
  intros H. unfold get_stock_price, scrape, arun, try_except, bind, logger_info.
  rewrite H. destruct (on_exception e). reflexivity.
Qed.

(** Nothing was extracted: the first 404 is raised inside the [try] and
    caught by [except Exception]. *)
Lemma get_stock_price_no_content (r : CrawlResult) :
  crawler browser_config config (yahoo_finance_url (str_upper symbol)) = Return r ->
  extracted_content r = None \/ extracted_content r = Some "" ->
  get_stock_price crawler symbol =
    ((prologue symbol ++
      [LogInfo ("Raw extracted content: " ++ format_content (extracted_content r));
       LogError "No extracted content found.";
       LogError "Error during crawl: 404: Price not found for the given symbol."])%list,
     Raise (HTTPException 500
       "Error fetching stock price: 404: Price not found for the given symbol.")).
Proof.
  intros H E. unfold get_stock_price, scrape, arun, try_except, bind, logger_info.
  rewrite H. destruct E as [E|E]; rewrite E; reflexivity.
Qed.

(** Some text was extracted and [json.loads] raises [e]. *)
Lemma get_stock_price_loads_raises (r : CrawlResult) (content : string) (e : exn) :
  crawler browser_config config (yahoo_finance_url (str_upper symbol)) = Return r ->
  extracted_content r = Some content ->
  content <> "" ->
  json_loads content = Raise e ->
  get_stock_price crawler symbol =
    ((prologue symbol ++ LogInfo ("Raw extracted content: " ++ content)
        :: trace (on_exception e))%list,
     result (on_exception e)).
Proof.
  intros H E NE L. unfold get_stock_price, scrape, arun, try_except, bind, logger_info.
  rewrite H, E. destruct content as [|c content]; [now elim NE|].
  unfold lift. rewrite L. destruct (on_exception e). reflexivity.
Qed.

(** The text decodes to [data] and reading the price raises [e]. *)
Lemma get_stock_price_price_raises
    (r : CrawlResult) (content : string) (data : pyval) (e : exn) :
  crawler browser_config config (yahoo_finance_url (str_upper symbol)) = Return r ->
  extracted_content r = Some content ->
  content <> "" ->
  json_loads content = Return data ->
  first_price data = Raise e ->
  get_stock_price crawler symbol =
    ((prologue symbol ++ LogInfo ("Raw extracted content: " ++ content)
        :: trace (on_exception e))%list,
     result (on_exception e)).
Proof.
  intros H E NE L P. unfold get_stock_price, scrape, arun, try_except, bind, logger_info.
  rewrite H, E. destruct content as [|c content]; [now elim NE|].
  unfold lift. rewrite L, P. destruct (on_exception e). reflexivity.
Qed.

(** The text decodes to [data] and the price read is falsy: the second 404
    is raised inside the [try] and caught by [except Exception]. *)
Lemma get_stock_price_no_price
    (r : CrawlResult) (content : string) (data price : pyval) :
  crawler browser_config config (yahoo_finance_url (str_upper symbol)) = Return r ->
  extracted_content r = Some content ->
  content <> "" ->
  json_loads content = Return data ->
  first_price data = Return price ->
  truthy price = false ->
  get_stock_price crawler symbol =
    ((prologue symbol ++
      [LogInfo ("Raw extracted content: " ++ content);
       LogError "Price not found in extracted data.";
       LogError "Error during crawl: 404: Price not found in the extracted data."])%list,
     Raise (HTTPException 500
       "Error fetching stock price: 404: Price not found in the extracted data.")).
Proof.
  intros H E NE L P T. unfold get_stock_price, scrape, arun, try_except, bind, logger_info.
  rewrite H, E. destruct content as [|c content]; [now elim NE|].
  unfold lift. rewrite L, P, T. reflexivity.
Qed.

(** The text decodes to [data] and the price read is truthy. *)
Lemma get_stock_price_found
    (r : CrawlResult) (content : string) (data price : pyval) :
  crawler browser_config config (yahoo_finance_url (str_upper symbol)) = Return r ->
  extracted_content r = Some content ->
  content <> "" ->
  json_loads content = Return data ->
  first_price data = Return price ->
  truthy price = true ->
  get_stock_price crawler symbol =
    ((prologue symbol ++ [LogInfo ("Raw extracted content: " ++ content)])%list,
     Return (PyDict [("symbol", PyStr (str_upper symbol)); ("price", price)])).
Proof.
  intros H E NE L P T. unfold get_stock_price, scrape, arun, try_except, bind, logger_info.
  rewrite H, E. destruct content as [|c content]; [now elim NE|].
  unfold lift. rewrite L, P, T. reflexivity.
Qed.

End Pipeline.

(** ** What every request does *)

Lemma on_exception_spec (e : exn) :
  (exists line detail,
      on_exception e = ([LogError line], Raise (HTTPException 500 detail)))
  \/ (is_Exception e = false /\ on_exception e = ([], Raise e)).
Proof.
  unfold on_exception. destruct (is_JSONDecodeError e).
  - left. eexists. eexists. reflexivity.
  - destruct (is_Exception e).
    + left. eexists. eexists. reflexivity.
    + right. split; reflexivity.
Qed.


(** An exception [except Exception] does not catch is answered by the
    server. *)
Lemma respond_escape (e : exn) :
  is_Exception e = false ->
  respond (Raise e) = PlainTextResponse 500 "Internal Server Error".
Proof. destruct e; (discriminate || reflexivity). Qed.

Lemma on_exception_decode (msg : string) :
  on_exception (JSONDecodeError msg) =
    ([LogError ("JSON decoding error: " ++ msg)],
     Raise (HTTPException 500 ("Failed to parse extracted data: " ++ msg))).
Proof. reflexivity. Qed.

Lemma get_stock_price_run {rt : Runtime} (crawler : Crawler) (symbol : string) :
  run_of symbol (get_stock_price crawler symbol).
Proof.
  destruct (crawler browser_config config (yahoo_finance_url (str_upper symbol)))
    as [r|e] eqn:H.
  - destruct (extracted_content r) as [content|] eqn:E.
    + destruct (string_dec content "") as [->|NE].
      * rewrite (get_stock_price_no_content _ _ r H (or_intror E)).
        apply (run_error symbol [_] [_; _]).
      * destruct (json_loads content) as [data|e] eqn:L.
        -- destruct (first_price data) as [price|e] eqn:P.
           ++ destruct (truthy price) eqn:T.
              ** rewrite (get_stock_price_found _ _ r content data price H E NE L P T).
                 now apply (run_quote symbol [_]).
              ** rewrite (get_stock_price_no_price _ _ r content data price H E NE L P T).
                 apply (run_error symbol [_] [_; _]).
           ++ rewrite (get_stock_price_price_raises _ _ r content data e H E NE L P).
              destruct (on_exception_spec e) as [(line & detail & ->)|(X & ->)].
              ** apply (run_error symbol [_] [_]).
              ** now apply (run_escape symbol [_]).
        -- rewrite (get_stock_price_loads_raises _ _ r content e H E NE L).
           destruct (on_exception_spec e) as [(line & detail & ->)|(X & ->)].
           ++ apply (run_error symbol [_] [_]).
           ++ now apply (run_escape symbol [_]).
    + rewrite (get_stock_price_no_content _ _ r H (or_introl E)).
      apply (run_error symbol [_] [_; _]).
  - rewrite (get_stock_price_crawler_raises _ _ e H).
    destruct (on_exception_spec e) as [(line & detail & ->)|(X & ->)].
    + apply (run_error symbol [] [_]).
    + now apply (run_escape symbol []).
Qed.

Lemma crawler_calls_logs (info errors : list string) :
  crawler_calls (map LogInfo info ++ map LogError errors) = [].
Proof.
  unfold crawler_calls. rewrite filter_app.
  induction info as [|i info IH]; simpl; [|exact IH].
  induction errors as [|x errors IHe]; simpl; [reflexivity|exact IHe].
Qed.

(** Every request calls the crawler exactly once, on the quote page of the
    upper-cased symbol, with [browser_config] and [config]. *)
Lemma get_stock_price_crawler_calls {rt : Runtime} (crawler : Crawler) (symbol : string) :
  crawler_calls (trace (get_stock_price crawler symbol)) =
    [Arun browser_config config (yahoo_finance_url (str_upper symbol))].
Proof.
  destruct (get_stock_price_run crawler symbol)
    as [info price T|info errors detail|info e X];
    cbn [trace fst crawler_calls filter]; f_equal.
  - rewrite <- (app_nil_r (map LogInfo info)).
    apply (crawler_calls_logs info []).
  - apply crawler_calls_logs.
  - rewrite <- (app_nil_r (map LogInfo info)).
    apply (crawler_calls_logs info []).
Qed.

(** Every request is answered by a quote -- with status 200 when it can be
    rendered -- or by a [detail] with status 500, or by the server's own
    500 when an exception [except Exception] does not catch goes through
    the handler. *)
Lemma get_stock_price_response {rt : Runtime} (crawler : Crawler) (symbol : string) :
  let response := response_of (app crawler (GET_stock symbol)) in
  (exists price,
      truthy price = true /\
      response =
        respond (Return (PyDict [("symbol", PyStr (str_upper symbol)); ("price", price)])))
  \/ (exists detail, response = JSONResponse 500 (PyDict [("detail", PyStr detail)]))
  \/ response = PlainTextResponse 500 "Internal Server Error".
Proof.
  unfold response_of, app, route.
  destruct (get_stock_price_run crawler symbol)
    as [info price T|info errors detail|info e X]; cbn [snd result].
  - left. now exists price.
  - right. left. now exists detail.
  - right. right. now apply respond_escape.
Qed.

(** A response with status 200 carries the value the handler returned. *)
Lemma respond_200 (v : pyval) :
  status (respond (Return v)) = 200 -> respond (Return v) = JSONResponse 200 v.
Proof.
  unfold respond. destruct (renders v); [reflexivity | discriminate].
Qed.

(** The [try] block alone, before the [except] clauses see the exception:
    here the two 404 are still what is raised. *)
Lemma scrape_no_content {rt : Runtime}
    (crawler : Crawler) (symbol : string) (r : CrawlResult) :
  crawler browser_config config (yahoo_finance_url symbol) = Return r ->
  extracted_content r = None \/ extracted_content r = Some "" ->
  result (scrape crawler symbol) =
    Raise (HTTPException 404 "Price not found for the given symbol.") /\
  error_log (trace (scrape crawler symbol)) = ["No extracted content found."].
Proof.
  intros H E. unfold scrape, arun, bind, logger_info. rewrite H.
  destruct E as [E|E]; rewrite E; split; reflexivity.
Qed.

Lemma scrape_no_price {rt : Runtime}
    (crawler : Crawler) (symbol : string) (r : CrawlResult) (content : string)
    (data price : pyval) :
  crawler browser_config config (yahoo_finance_url symbol) = Return r ->
  extracted_content r = Some content ->
  content <> "" ->
  json_loads content = Return data ->
  first_price data = Return price ->
  truthy price = false ->
  result (scrape crawler symbol) =
    Raise (HTTPException 404 "Price not found in the extracted data.") /\
  error_log (trace (scrape crawler symbol)) = ["Price not found in extracted data."].
Proof.
  intros H E NE L P T. unfold scrape, arun, bind, logger_info. rewrite H, E.
  destruct content as [|c content]; [now elim NE|].
  unfold lift. rewrite L, P, T. split; reflexivity.
Qed.

(** ** The claims of the specification *)

(** C1, as the code behaves: when the crawler returns no extracted content
    ([None] or the empty string) for [GET /stock/{symbol}], the
    [HTTPException] with status 404 raised inside the [try] is caught by
    [except Exception] and raised again with status 500.  The response has
    status 500, not 404; its detail still mentions "not found". *)
Theorem no_content_response {rt : Runtime}
    (crawler : Crawler) (symbol : string) (r : CrawlResult) :
  crawler browser_config config (yahoo_finance_url (str_upper symbol)) = Return r ->
  extracted_content r = None \/ extracted_content r = Some "" ->
  let response := response_of (app crawler (GET_stock symbol)) in
  status response = 500 /\
  status response <> 404 /\
  detail_of response =
    Some "Error fetching stock price: 404: Price not found for the given symbol." /\
  exists detail, detail_of response = Some detail /\ contains "not found" detail = true.
Proof.
  intros H E. unfold response_of, app, route.
  rewrite (get_stock_price_no_content _ _ r H E). cbn [snd result respond status].
  repeat split; [discriminate|]. eexists. split; reflexivity.
Qed.

Lemma no_content_response_witness :
  let response :=
    response_of (app (returning (Some "")) (GET_stock "XXXX")) in
  status response = 500 /\
  status response <> 404 /\
  detail_of response =
    Some "Error fetching stock price: 404: Price not found for the given symbol." /\
  exists detail, detail_of response = Some detail /\ contains "not found" detail = true.
Proof.
  apply (no_content_response (returning (Some "")) "XXXX"
           {| extracted_content := Some "" |}).
  - reflexivity.
  - right. reflexivity.
Defined.

(** C2, as the code behaves: when the extracted content decodes to an
    array whose first element is an object whose [price] is missing or
    falsy, the [HTTPException] with status 404 raised inside the [try] is
    caught by [except Exception] and raised again with status 500.  The
    response has status 500, not 404 (and not 200). *)
Theorem falsy_price_response {rt : Runtime}
    (crawler : Crawler) (symbol : string) (r : CrawlResult) (content : string)
    (first : list (string * pyval)) (others : list pyval) (price : pyval) :
  crawler browser_config config (yahoo_finance_url (str_upper symbol)) = Return r ->
  extracted_content r = Some content ->
  content <> "" ->
  json_loads content = Return (PyList (PyDict first :: others)) ->
  get (PyDict first) "price" PyNone = Return price ->
  truthy price = false ->
  let response := response_of (app crawler (GET_stock symbol)) in
  status response = 500 /\
  status response <> 404 /\
  status response <> 200 /\
  detail_of response =
    Some "Error fetching stock price: 404: Price not found in the extracted data.".
Proof.
  intros H E NE L G T. unfold response_of, app, route.
  rewrite (get_stock_price_no_price _ _ r content _ price H E NE L); [| exact G | exact T].
  cbn [snd result respond status]. repeat split; discriminate.
Qed.

Lemma falsy_price_response_witness :
  let response :=
    response_of (app (returning (Some empty_price_content)) (GET_stock "MSFT")) in
  status response = 500 /\
  status response <> 404 /\
  status response <> 200 /\
  detail_of response =
    Some "Error fetching stock price: 404: Price not found in the extracted data.".
Proof.
  apply (falsy_price_response (returning (Some empty_price_content)) "MSFT"
           {| extracted_content := Some empty_price_content |} empty_price_content
           [("price", PyStr "")] [] (PyStr "")).
  - reflexivity.
  - reflexivity.
  - discriminate.
  - vm_compute. reflexivity.
  - reflexivity.
  - reflexivity.
Defined.

(** C3: for every symbol, [GET /stock/{symbol}] calls the crawler exactly
    once, on the URL that embeds the upper-cased symbol, and the [symbol]
    member of a response with status 200 is the upper-cased path
    parameter. *)
Theorem symbol_uppercased {rt : Runtime} (crawler : Crawler) (symbol : string) :
  let served := app crawler (GET_stock symbol) in
  crawler_calls (fst served) =
    [Arun browser_config config
       ("https://finance.yahoo.com/quote/" ++ str_upper symbol ++ "/")] /\
  (status (response_of served) = 200 ->
   body_field (response_of served) "symbol" = Some (PyStr (str_upper symbol))).
Proof.
  split.
  - apply get_stock_price_crawler_calls.
  - destruct (get_stock_price_response crawler symbol)
      as [(price & _ & ->)|[(detail & ->)| ->]].
    + intros OK. rewrite (respond_200 _ OK). reflexivity.
    + discriminate.
    + discriminate.
Qed.

Lemma symbol_uppercased_witness :
  let served := app (returning (Some msft_content)) (GET_stock "aapl") in
  crawler_calls (fst served) =
    [Arun browser_config config "https://finance.yahoo.com/quote/AAPL/"] /\
  status (response_of served) = 200 /\
  body_field (response_of served) "symbol" = Some (PyStr "AAPL").
Proof.
  destruct (symbol_uppercased (returning (Some msft_content)) "aapl") as [calls field].
  split; [exact calls|]. split; [reflexivity|]. apply field. reflexivity.
Defined.

(** C4: when the crawler returns non-empty content on which [json.loads]
    raises a [JSONDecodeError], the response has status 500 and its detail
    is "Failed to parse extracted data: " followed by the decoder's
    message, which it therefore contains. *)
Theorem malformed_content_response {rt : Runtime}
    (crawler : Crawler) (symbol : string) (r : CrawlResult) (content msg : string) :
  crawler browser_config config (yahoo_finance_url (str_upper symbol)) = Return r ->
  extracted_content r = Some content ->
  content <> "" ->
  json_loads content = Raise (JSONDecodeError msg) ->
  let response := response_of (app crawler (GET_stock symbol)) in
  status response = 500 /\
  exists detail,
    detail_of response = Some detail /\
    detail = "Failed to parse extracted data: " ++ msg /\
    contains msg detail = true.
Proof.
  intros H E NE L. unfold response_of, app, route.
  rewrite (get_stock_price_loads_raises _ _ r content _ H E NE L), on_exception_decode.
  cbn [snd result respond status]. split; [reflexivity|].
  eexists. split; [reflexivity|]. split; [reflexivity|]. apply contains_suffix.
Qed.

Lemma malformed_content_response_witness :
  let response := response_of (app (returning (Some "<html>")) (GET_stock "MSFT")) in
  status response = 500 /\
  exists detail,
    detail_of response = Some detail /\
    detail = "Failed to parse extracted data: "
             ++ "Expecting value: line 1 column 1 (char 0)" /\
    contains "Expecting value: line 1 column 1 (char 0)" detail = true.
Proof.
  apply (malformed_content_response (returning (Some "<html>")) "MSFT"
           {| extracted_content := Some "<html>" |} "<html>").
  - reflexivity.
  - reflexivity.
  - discriminate.
  - vm_compute. reflexivity.
Defined.

(** C5: when the crawler returns the text [[{"price": "189.50"}]] for
    [GET /stock/MSFT], the response is exactly
    [{"symbol": "MSFT", "price": "189.50"}] with status 200.  [str.upper]
    leaves "MSFT" as it is and [json.loads] decodes the text to a list of
    one object. *)
Theorem msft_quote {rt : Runtime} (crawler : Crawler) :
  str_upper "MSFT" = "MSFT" ->
  json_loads msft_content = Return (PyList [PyDict [("price", PyStr "189.50")]]) ->
  crawler browser_config config "https://finance.yahoo.com/quote/MSFT/"
    = Return {| extracted_content := Some msft_content |} ->
  response_of (app crawler (GET_stock "MSFT")) =
    JSONResponse 200 (PyDict [("symbol", PyStr "MSFT"); ("price", PyStr "189.50")]).
Proof.
  intros U L H. unfold response_of, app, route.
  rewrite (get_stock_price_found crawler "MSFT" {| extracted_content := Some msft_content |}
             msft_content (PyList [PyDict [("price", PyStr "189.50")]]) (PyStr "189.50")).
  - cbn [snd result respond]. now rewrite U.
  - rewrite U. exact H.
  - reflexivity.
  - discriminate.
  - exact L.
  - reflexivity.
  - reflexivity.
Qed.

Lemma msft_quote_witness :
  response_of (app (rt := reference_runtime) (returning (Some msft_content))
                 (GET_stock "MSFT")) =
    JSONResponse 200 (PyDict [("symbol", PyStr "MSFT"); ("price", PyStr "189.50")]).
Proof.
  apply (msft_quote (rt := reference_runtime) (returning (Some msft_content))).
  - reflexivity.
  - vm_compute. reflexivity.
  - reflexivity.
Defined.




(** C7: [GET /health] answers [{"status": "healthy"}] with status 200
    whatever the crawler is, and performs no event at all: the crawler is
    not called. *)
Theorem health_check_static {rt : Runtime} (crawler : Crawler) :
  app crawler GET_health =
    ([], JSONResponse 200 (PyDict [("status", PyStr "healthy")])) /\
  crawler_calls (fst (app crawler GET_health)) = [].
Proof. split; reflexivity. Qed.

(** C8: the two causes of "not found" stay apart.  When one request finds
    no extracted content and another finds content whose price is missing
    or falsy, the details of the two responses are different strings, and
    so are the error lines logged where each cause is detected. *)
Theorem not_found_causes_distinguishable {rt : Runtime}
    (crawler1 crawler2 : Crawler) (symbol1 symbol2 : string)
    (r1 r2 : CrawlResult) (content : string) (data price : pyval) :
  crawler1 browser_config config (yahoo_finance_url (str_upper symbol1)) = Return r1 ->
  extracted_content r1 = None \/ extracted_content r1 = Some "" ->
  crawler2 browser_config config (yahoo_finance_url (str_upper symbol2)) = Return r2 ->
  extracted_content r2 = Some content ->
  content <> "" ->
  json_loads content = Return data ->
  first_price data = Return price ->
  truthy price = false ->
  let served1 := app crawler1 (GET_stock symbol1) in
  let served2 := app crawler2 (GET_stock symbol2) in
  detail_of (response_of served1) <> detail_of (response_of served2) /\
  error_log (fst served1) <> error_log (fst served2) /\
  hd_error (error_log (fst served1)) = Some "No extracted content found." /\
  hd_error (error_log (fst served2)) = Some "Price not found in extracted data." /\
  result (scrape crawler1 (str_upper symbol1)) <> result (scrape crawler2 (str_upper symbol2)).
Proof.
  intros H1 E1 H2 E2 NE L P T. unfold response_of, app, route.
  rewrite (get_stock_price_no_content _ _ r1 H1 E1).
  rewrite (get_stock_price_no_price _ _ r2 content data price H2 E2 NE L P T).
  destruct (scrape_no_content _ _ r1 H1 E1) as [-> _].
  destruct (scrape_no_price _ _ r2 content data price H2 E2 NE L P T) as [-> _].
  cbn. repeat split; discriminate.
Qed.

Lemma not_found_causes_distinguishable_witness :
  let served1 := app (returning None) (GET_stock "XXXX") in
  let served2 := app (returning (Some empty_price_content)) (GET_stock "MSFT") in
  detail_of (response_of served1) <> detail_of (response_of served2) /\
  error_log (fst served1) <> error_log (fst served2) /\
  hd_error (error_log (fst served1)) = Some "No extracted content found." /\
  hd_error (error_log (fst served2)) = Some "Price not found in extracted data." /\
  result (scrape (returning None) (str_upper "XXXX"))
    <> result (scrape (returning (Some empty_price_content)) (str_upper "MSFT")).
Proof.
  apply (not_found_causes_distinguishable
           (returning None) (returning (Some empty_price_content)) "XXXX" "MSFT"
           {| extracted_content := None |}
           {| extracted_content := Some empty_price_content |}
           empty_price_content (PyList [PyDict [("price", PyStr "")]]) (PyStr "")).
  - reflexivity.
  - left. reflexivity.
  - reflexivity.
  - reflexivity.
  - discriminate.
  - vm_compute. reflexivity.
  - reflexivity.
  - reflexivity.
Defined.

(** C9: the schema and the session policy handed to the crawler are the
    same for any two requests [GET /stock/{symbol}], whatever the symbols
    and whatever the crawler answers: always the constants
    [browser_config] and [config], the latter carrying [schema]. *)
Theorem crawler_configuration_constant {rt : Runtime}
    (crawler1 crawler2 : Crawler) (symbol1 symbol2 : string) :
  configurations (trace (get_stock_price crawler1 symbol1)) =
    configurations (trace (get_stock_price crawler2 symbol2)) /\
  configurations (trace (get_stock_price crawler1 symbol1)) = [(browser_config, config)] /\
  extraction_strategy config = JsonCssExtractionStrategy schema.
Proof.
  unfold configurations. rewrite !get_stock_price_crawler_calls. repeat split.
Qed.

(** C10: when the extracted content decodes to the empty array, the test
    [if data] fails and the array is not subscripted: the price read is
    [None], the [try] block logs "Price not found in extracted data." and
    raises the 404 of that branch.  For no array at all does reading the
    price raise [IndexError], and whenever the test lets the subscript be
    evaluated the array has a first element. *)
Theorem empty_array_guarded {rt : Runtime}
    (crawler : Crawler) (symbol : string) (r : CrawlResult) (content : string) :
  crawler browser_config config (yahoo_finance_url (str_upper symbol)) = Return r ->
  extracted_content r = Some content ->
  content <> "" ->
  json_loads content = Return (PyList []) ->
  first_price (PyList []) = Return PyNone /\
  (forall l msg, first_price (PyList l) <> Raise (IndexError msg)) /\
  (forall l, truthy (PyList l) = true -> exists first, getitem0 (PyList l) = Return first) /\
  result (scrape crawler (str_upper symbol)) =
    Raise (HTTPException 404 "Price not found in the extracted data.") /\
  error_log (trace (scrape crawler (str_upper symbol))) =
    ["Price not found in extracted data."].
Proof.
  intros H E NE L. split; [reflexivity|]. split; [|split].
  - intros [|first l] msg; [discriminate|].
    unfold first_price. cbn [truthy getitem0].
    destruct first; cbn [get]; try discriminate.
    destruct (dict_lookup d "price"); discriminate.
  - intros [|first l] T; [discriminate|]. now exists first.
  - apply (scrape_no_price crawler _ r content (PyList []) PyNone H E NE L);
      reflexivity.
Qed.

Lemma empty_array_guarded_witness :
  first_price (PyList []) = Return PyNone /\
  (forall l msg, first_price (PyList l) <> Raise (IndexError msg)) /\
  (forall l, truthy (PyList l) = true -> exists first, getitem0 (PyList l) = Return first) /\
  result (scrape (returning (Some "[]")) (str_upper "MSFT")) =
    Raise (HTTPException 404 "Price not found in the extracted data.") /\
  error_log (trace (scrape (returning (Some "[]")) (str_upper "MSFT"))) =
    ["Price not found in extracted data."].
Proof.
  apply (empty_array_guarded (returning (Some "[]")) "MSFT"
           {| extracted_content := Some "[]" |} "[]").
  - reflexivity.
  - reflexivity.
  - discriminate.
  - vm_compute. reflexivity.
Defined.

(** ** Sample runs with the reference runtime *)

(** A lower-case symbol and a price that is a JSON string. *)
Example run_aapl :
  app (returning (Some msft_content)) (GET_stock "aapl") =
    ([LogInfo "Attempting to crawl: https://finance.yahoo.com/quote/AAPL/";
      Arun browser_config config "https://finance.yahoo.com/quote/AAPL/";
      LogInfo ("Raw extracted content: " ++ msft_content)],
     JSONResponse 200 (PyDict [("symbol", PyStr "AAPL"); ("price", PyStr "189.50")])).
Proof. vm_compute. reflexivity. Qed.

(** The selector matched nothing: the strategy extracts an empty array. *)
Example run_empty_array :
  app (returning (Some "[]")) (GET_stock "msft") =
    ([LogInfo "Attempting to crawl: https://finance.yahoo.com/quote/MSFT/";
      Arun browser_config config "https://finance.yahoo.com/quote/MSFT/";
      LogInfo "Raw extracted content: []";
      LogError "Price not found in extracted data.";
      LogError "Error during crawl: 404: Price not found in the extracted data."],
     JSONResponse 500 (PyDict [("detail",
       PyStr "Error fetching stock price: 404: Price not found in the extracted data.")])).
Proof. vm_compute. reflexivity. Qed.

(** The crawler extracted nothing at all. *)
Example run_none :
  app (returning None) (GET_stock "msft") =
    ([LogInfo "Attempting to crawl: https://finance.yahoo.com/quote/MSFT/";
      Arun browser_config config "https://finance.yahoo.com/quote/MSFT/";
      LogInfo "Raw extracted content: None";
      LogError "No extracted content found.";
      LogError "Error during crawl: 404: Price not found for the given symbol."],
     JSONResponse 500 (PyDict [("detail",
       PyStr "Error fetching stock price: 404: Price not found for the given symbol.")])).
Proof. vm_compute. reflexivity. Qed.

(** An array of numbers: its first element has no method [get]. *)
Example run_array_of_numbers :
  response_of (app (returning (Some "[1, 2]")) (GET_stock "msft")) =
    JSONResponse 500 (PyDict [("detail",
      PyStr "Error fetching stock price: 'int' object has no attribute 'get'")]).
Proof. vm_compute. reflexivity. Qed.

(** A number where an array is expected: it cannot be subscripted. *)
Example run_number :
  response_of (app (returning (Some "7")) (GET_stock "msft")) =
    JSONResponse 500 (PyDict [("detail",
      PyStr "Error fetching stock price: 'int' object is not subscriptable")]).
Proof. vm_compute. reflexivity. Qed.

(** Text cut short: the decoder's message is passed on. *)
Example run_truncated :
  response_of (app (returning (Some "[{")) (GET_stock "msft")) =
    JSONResponse 500 (PyDict [("detail",
      PyStr ("Failed to parse extracted data: Expecting property name enclosed "
             ++ "in double quotes: line 1 column 3 (char 2)"))]).
Proof. vm_compute. reflexivity. Qed.

(** A price that is the number zero is falsy. *)
Example first_price_zero :
  first_price (PyList [PyDict [("price", PyInt 0)]]) = Return (PyInt 0) /\
  truthy (PyInt 0) = false /\
  truthy (PyFloat (S754_zero true)) = false /\
  truthy (PyStr "0") = true.
Proof. repeat split. Qed.

(** A price that is not a number: truthy, returned by the handler, and
    refused when the response is rendered. *)
Example run_nan :
  result (get_stock_price (returning (Some nan_price_content))
            "msft") =
    Return (PyDict [("symbol", PyStr "MSFT"); ("price", PyFloat S754_nan)]) /\
  response_of (app (returning (Some nan_price_content))
                 (GET_stock "msft")) =
    PlainTextResponse 500 "Internal Server Error".
Proof. split; vm_compute; reflexivity. Qed.

(** ** Further properties of the handlers *)



(** The case analysis of a request on what the crawler, the decoder and
    the reading of the price do; [get_stock_price crawler symbol] is
    replaced by its value in each case. *)
Ltac stock_cases crawler symbol :=
  let H := fresh "Hcrawl" in
  let E := fresh "Hcontent" in
  let NE := fresh "Hnonempty" in
  let L := fresh "Hloads" in
  let P := fresh "Hprice" in
  let T := fresh "Htruthy" in
  let r := fresh "r" in
  let e := fresh "e" in
  let content := fresh "content" in
  let data := fresh "data" in
  let price := fresh "price" in
  destruct (crawler browser_config config (yahoo_finance_url (str_upper symbol)))
    as [r|e] eqn:H;
  [ destruct (extracted_content r) as [content|] eqn:E;
    [ destruct (string_dec content "") as [NE|NE];
      [ rewrite NE in E;
        rewrite (get_stock_price_no_content crawler symbol r H (or_intror E))
      | destruct (json_loads content) as [data|e] eqn:L;
        [ destruct (first_price data) as [price|e] eqn:P;
          [ destruct (truthy price) eqn:T;
            [ rewrite (get_stock_price_found crawler symbol r content data price
                         H E NE L P T)
            | rewrite (get_stock_price_no_price crawler symbol r content data price
                         H E NE L P T) ]
          | rewrite (get_stock_price_price_raises crawler symbol r content data e
                       H E NE L P) ]
        | rewrite (get_stock_price_loads_raises crawler symbol r content e H E NE L) ] ]
    | rewrite (get_stock_price_no_content crawler symbol r H (or_introl E)) ]
  | rewrite (get_stock_price_crawler_raises crawler symbol e H) ].

(** X1: [GET /] answers the fixed welcome message with status 200 whatever
    the crawler and the runtime are, and performs no event: nothing is
    logged and the crawler is not called. *)
Theorem read_root_static {rt : Runtime} (crawler : Crawler) :
  app crawler GET_root =
    ([], JSONResponse 200 (PyDict [("message",
       PyStr "Welcome to the Real-Time Stock Price API. Use /stock/{symbol} to get prices.")])).
Proof. reflexivity. Qed.



(** X4: only the [price] member of the first element of the decoded array
    is read.  Whatever the other members of that object and the other
    elements of the array are, and whatever the JSON type of the price is,
    a truthy price is returned unchanged beside the upper-cased symbol. *)
Theorem first_element_decides {rt : Runtime}
    (crawler : Crawler) (symbol : string) (r : CrawlResult) (content : string)
    (first : list (string * pyval)) (others : list pyval) (price : pyval) :
  crawler browser_config config (yahoo_finance_url (str_upper symbol)) = Return r ->
  extracted_content r = Some content ->
  content <> "" ->
  json_loads content = Return (PyList (PyDict first :: others)) ->
  dict_lookup first "price" = Some price ->
  truthy price = true ->
  result (get_stock_price crawler symbol) =
    Return (PyDict [("symbol", PyStr (str_upper symbol)); ("price", price)]).
Proof.
  intros H E NE L D T.
  rewrite (get_stock_price_found crawler symbol r content _ price H E NE L); trivial.
  unfold first_price. cbn [truthy getitem0 get]. now rewrite D.
Qed.

Lemma first_element_decides_witness :
  result (get_stock_price (returning (Some mixed_content)) "msft") =
    Return (PyDict [("symbol", PyStr "MSFT"); ("price", PyInt 189)]).
Proof.
  change (PyStr "MSFT") with (PyStr (str_upper "msft")).
  apply (first_element_decides (returning (Some mixed_content)) "msft"
           {| extracted_content := Some mixed_content |} mixed_content
           [("currency", PyStr "USD"); ("price", PyInt 189)] [PyStr "ignored"]
           (PyInt 189)).
  - reflexivity.
  - reflexivity.
  - discriminate.
  - vm_compute. reflexivity.
  - reflexivity.
  - reflexivity.
Defined.

(** X5: when the text decodes to any falsy value ([null], [false], [0],
    [0.0], the empty string, array or object), the value is not subscripted:
    the price read is [None] and the request ends in the price-not-found
    branch, answered with status 500 and the wrapped 404 detail. *)
Theorem falsy_document_not_found {rt : Runtime}
    (crawler : Crawler) (symbol : string) (r : CrawlResult) (content : string)
    (data : pyval) :
  crawler browser_config config (yahoo_finance_url (str_upper symbol)) = Return r ->
  extracted_content r = Some content ->
  content <> "" ->
  json_loads content = Return data ->
  truthy data = false ->
  first_price data = Return PyNone /\
  error_log (fst (app crawler (GET_stock symbol))) =
    ["Price not found in extracted data.";
     "Error during crawl: 404: Price not found in the extracted data."] /\
  response_of (app crawler (GET_stock symbol)) =
    JSONResponse 500 (PyDict [("detail",
      PyStr "Error fetching stock price: 404: Price not found in the extracted data.")]).
Proof.
  intros H E NE L F.
  assert (P : first_price data = Return PyNone) by (unfold first_price; now rewrite F).
  split; [exact P|]. unfold response_of, app, route.
  rewrite (get_stock_price_no_price crawler symbol r content data PyNone H E NE L P eq_refl).
  split; reflexivity.
Qed.

Lemma falsy_document_not_found_witness :
  first_price PyNone = Return PyNone /\
  error_log (fst (app (returning (Some "null")) (GET_stock "msft"))) =
    ["Price not found in extracted data.";
     "Error during crawl: 404: Price not found in the extracted data."] /\
  response_of (app (returning (Some "null")) (GET_stock "msft")) =
    JSONResponse 500 (PyDict [("detail",
      PyStr "Error fetching stock price: 404: Price not found in the extracted data.")]).
Proof.
  apply (falsy_document_not_found (returning (Some "null")) "msft"
           {| extracted_content := Some "null" |} "null" PyNone).
  - reflexivity.
  - reflexivity.
  - discriminate.
  - vm_compute. reflexivity.
  - reflexivity.
Defined.

(** X6: when the text decodes to a non-empty object instead of an array,
    [data[0]] raises [KeyError(0)], whatever the object holds (a [price]
    member included): the response has status 500 and the detail
    "Error fetching stock price: 0". *)
Theorem object_document_key_error {rt : Runtime}
    (crawler : Crawler) (symbol : string) (r : CrawlResult) (content : string)
    (item : string * pyval) (items : list (string * pyval)) :
  crawler browser_config config (yahoo_finance_url (str_upper symbol)) = Return r ->
  extracted_content r = Some content ->
  content <> "" ->
  json_loads content = Return (PyDict (item :: items)) ->
  response_of (app crawler (GET_stock symbol)) =
    JSONResponse 500 (PyDict [("detail", PyStr "Error fetching stock price: 0")]).
Proof.
  intros H E NE L. unfold response_of, app, route.
  rewrite (get_stock_price_price_raises crawler symbol r content _ (KeyError "0")
             H E NE L eq_refl).
  reflexivity.
Qed.

Lemma object_document_key_error_witness :
  response_of (app (returning (Some object_content)) (GET_stock "msft")) =
    JSONResponse 500 (PyDict [("detail", PyStr "Error fetching stock price: 0")]).
Proof.
  apply (object_document_key_error (returning (Some object_content)) "msft"
           {| extracted_content := Some object_content |} object_content
           ("price", PyStr "189.50") []).
  - reflexivity.
  - reflexivity.
  - discriminate.
  - vm_compute. reflexivity.
Defined.

(** X7: when [data[0]] is not an object (the array holds numbers, strings,
    arrays, ..., or the decoded value is itself a non-empty string), the
    call of [get] raises [AttributeError]: the response has status 500 and
    its detail names the type of [data[0]]. *)
Theorem first_not_object_attribute_error {rt : Runtime}
    (crawler : Crawler) (symbol : string) (r : CrawlResult) (content : string)
    (data first : pyval) :
  crawler browser_config config (yahoo_finance_url (str_upper symbol)) = Return r ->
  extracted_content r = Some content ->
  content <> "" ->
  json_loads content = Return data ->
  truthy data = true ->
  getitem0 data = Return first ->
  (forall d, first <> PyDict d) ->
  response_of (app crawler (GET_stock symbol)) =
    JSONResponse 500 (PyDict [("detail",
      PyStr ("Error fetching stock price: '" ++ type_name first
             ++ "' object has no attribute 'get'"))]).
Proof.
  intros H E NE L T G ND. unfold response_of, app, route.
  rewrite (get_stock_price_price_raises crawler symbol r content data
             (AttributeError ("'" ++ type_name first ++ "' object has no attribute 'get'"))
             H E NE L).
  - reflexivity.
  - unfold first_price. rewrite T, G.
    destruct first; try reflexivity. now elim (ND d).
Qed.

Lemma first_not_object_attribute_error_witness :
  response_of (app (returning (Some "[1, 2]")) (GET_stock "msft")) =
    JSONResponse 500 (PyDict [("detail",
      PyStr ("Error fetching stock price: '" ++ type_name (PyInt 1)
             ++ "' object has no attribute 'get'"))]).
Proof.
  apply (first_not_object_attribute_error (returning (Some "[1, 2]")) "msft"
           {| extracted_content := Some "[1, 2]" |} "[1, 2]"
           (PyList [PyInt 1; PyInt 2]) (PyInt 1)).
  - reflexivity.
  - reflexivity.
  - discriminate.
  - vm_compute. reflexivity.
  - reflexivity.
  - reflexivity.
  - discriminate.
Defined.

(** X8: when the text decodes to a truthy number or to [true], [data[0]]
    raises [TypeError]: the response has status 500 and its detail says
    that an object of that type is not subscriptable. *)
Theorem scalar_document_type_error {rt : Runtime}
    (crawler : Crawler) (symbol : string) (r : CrawlResult) (content : string)
    (data : pyval) :
  crawler browser_config config (yahoo_finance_url (str_upper symbol)) = Return r ->
  extracted_content r = Some content ->
  content <> "" ->
  json_loads content = Return data ->
  truthy data = true ->
  (exists b, data = PyBool b) \/ (exists n, data = PyInt n) \/ (exists f, data = PyFloat f) ->
  response_of (app crawler (GET_stock symbol)) =
    JSONResponse 500 (PyDict [("detail",
      PyStr ("Error fetching stock price: '" ++ type_name data
             ++ "' object is not subscriptable"))]).
Proof.
  intros H E NE L T S. unfold response_of, app, route.
  rewrite (get_stock_price_price_raises crawler symbol r content data
             (TypeError ("'" ++ type_name data ++ "' object is not subscriptable"))
             H E NE L).
  - reflexivity.
  - unfold first_price. rewrite T.
    destruct S as [(b & ->)|[(n & ->)|(f & ->)]]; reflexivity.
Qed.

Lemma scalar_document_type_error_witness :
  response_of (app (returning (Some "189.5")) (GET_stock "msft")) =
    JSONResponse 500 (PyDict [("detail",
      PyStr "Error fetching stock price: 'float' object is not subscriptable")]).
Proof.
  apply (scalar_document_type_error (returning (Some "189.5")) "msft"
           {| extracted_content := Some "189.5" |} "189.5"
           (PyFloat (S754_finite false 6667438510833664 (-45)))).
  - reflexivity.
  - reflexivity.
  - discriminate.
  - vm_compute. reflexivity.
  - reflexivity.
  - right. right. eexists. reflexivity.
Defined.

(** X9: reading the price of a decoded value, whatever the value is, fails
    only with [KeyError], [TypeError] or [AttributeError]: it never raises
    [IndexError], for a string no more than for an array, and never a
    [JSONDecodeError] or an [HTTPException]. *)
Theorem first_price_errors (data : pyval) (e : exn) :
  first_price data = Raise e ->
  (exists msg, e = KeyError msg) \/
  (exists msg, e = TypeError msg) \/
  (exists msg, e = AttributeError msg).
Proof.
  unfold first_price.
  destruct data as [|b|n|f|s|l|d]; cbn [truthy].
  - discriminate.
  - destruct b; [|discriminate]. intros [= <-]. right. left. eexists. reflexivity.
  - destruct (negb (n =? 0)); [|discriminate].
    intros [= <-]. right. left. eexists. reflexivity.
  - destruct f; try discriminate; intros [= <-]; right; left; eexists; reflexivity.
  - destruct s as [|c s]; [discriminate|]. cbn [negb String.eqb getitem0 get].
    intros [= <-]. right. right. eexists. reflexivity.
  - destruct l as [|first l]; [discriminate|]. cbn [getitem0].
    destruct first; cbn [get]; try (intros [= <-]; right; right; eexists; reflexivity).
    destruct (dict_lookup d "price"); discriminate.
  - destruct d as [|item d]; [discriminate|]. cbn [getitem0].
    intros [= <-]. left. eexists. reflexivity.
Qed.

Lemma first_price_errors_witness :
  (exists msg, TypeError "'int' object is not subscriptable" = KeyError msg) \/
  (exists msg, TypeError "'int' object is not subscriptable" = TypeError msg) \/
  (exists msg, TypeError "'int' object is not subscriptable" = AttributeError msg).
Proof.
  apply (first_price_errors (PyInt 7) (TypeError "'int' object is not subscriptable")).
  reflexivity.
Defined.





(** X12: a request logs at error level exactly when its handler raises an
    [HTTPException], which then has status 500: every [detail] sent was
    logged first, and a request that returns a quote logs no error line
    (nor does one that an exception [except Exception] does not catch goes
    through). *)
Theorem error_logged_iff_raised {rt : Runtime} (crawler : Crawler) (symbol : string) :
  (error_log (fst (app crawler (GET_stock symbol))) <> [] <->
   exists detail,
     result (get_stock_price crawler symbol) = Raise (HTTPException 500 detail)) /\
  ((exists quote, result (get_stock_price crawler symbol) = Return quote) ->
   error_log (fst (app crawler (GET_stock symbol))) = []).
Proof.
  unfold app, route. cbn [fst].
  stock_cases crawler symbol; cbn [trace result fst snd];
    try (destruct (on_exception_spec e) as [(line & detail & ->)|(X & ->)]);
    cbn [trace result fst snd]; unfold prologue; cbn [List.app error_log flat_map];
    first
      [ solve [ split;
                [ split; [intros _; eexists; reflexivity | discriminate]
                | intros (quote & [=]) ] ]
      | solve [ split;
                [ split; [intros N; now elim N | intros (d & [=])]
                | reflexivity ] ]
      | solve [ split;
                [ split; [intros N; now elim N | intros (d & [= ->]); discriminate X]
                | reflexivity ] ] ].
Qed.

(** X13: requests whose symbols have the same upper case are served alike:
    with the same crawler, they perform the same events and receive the
    same response. *)
Theorem symbol_case_insensitive {rt : Runtime}
    (crawler : Crawler) (symbol1 symbol2 : string) :
  str_upper symbol1 = str_upper symbol2 ->
  app crawler (GET_stock symbol1) = app crawler (GET_stock symbol2).
Proof.
  intros H. unfold app, route, get_stock_price. rewrite H. reflexivity.
Qed.

Lemma symbol_case_insensitive_witness :
  app (returning (Some msft_content)) (GET_stock "mSfT") =
  app (returning (Some msft_content)) (GET_stock "MSFT").
Proof.
  apply (symbol_case_insensitive (returning (Some msft_content)) "mSfT" "MSFT").
  reflexivity.
Defined.

Lemma append_slash_injective (s1 s2 : string) : s1 ++ "/" = s2 ++ "/" -> s1 = s2.
Proof.
  revert s2. induction s1 as [|a s1 IH]; intros [|b s2]; cbn [append].
  - reflexivity.
  - intros [= <- H]. destruct s2; discriminate.
  - intros [= -> H]. destruct s1; discriminate.
  - intros [= -> H]. f_equal. now apply IH.
Qed.

Lemma yahoo_finance_url_injective (s1 s2 : string) :
  yahoo_finance_url s1 = yahoo_finance_url s2 -> s1 = s2.
Proof.
  unfold yahoo_finance_url. cbn [append]. intros [= H].
  now apply append_slash_injective.
Qed.

(** X14: the page a request sends the crawler to is determined by the
    upper-cased symbol and determines it: two requests call the crawler
    with the same arguments exactly when their symbols have the same upper
    case.  The symbol stands in the URL as it is, unescaped. *)
Theorem same_page_iff_same_symbol {rt : Runtime}
    (crawler1 crawler2 : Crawler) (symbol1 symbol2 : string) :
  (crawler_calls (fst (app crawler1 (GET_stock symbol1))) =
   crawler_calls (fst (app crawler2 (GET_stock symbol2)))
   <-> str_upper symbol1 = str_upper symbol2) /\
  contains (str_upper symbol1) (yahoo_finance_url (str_upper symbol1)) = true.
Proof.
  split.
  - unfold app, route. cbn [fst]. rewrite !get_stock_price_crawler_calls. split.
    + intros H. apply yahoo_finance_url_injective. congruence.
    + intros ->. reflexivity.
  - unfold yahoo_finance_url. apply contains_append.
Qed.

(** X15: every request starts by logging the URL and then calls the
    crawler, whatever happens next; and whenever the crawler returns a
    result, the next event logs the raw extracted content, before it is
    validated ([None] is logged as "None"). *)
Theorem crawl_logged_first {rt : Runtime} (crawler : Crawler) (symbol : string) :
  exists rest,
    fst (app crawler (GET_stock symbol)) =
      LogInfo ("Attempting to crawl: " ++ yahoo_finance_url (str_upper symbol))
      :: Arun browser_config config (yahoo_finance_url (str_upper symbol))
      :: rest /\
    forall res,
      crawler browser_config config (yahoo_finance_url (str_upper symbol)) = Return res ->
      exists rest',
        rest = LogInfo ("Raw extracted content: " ++ format_content (extracted_content res))
               :: rest'.
Proof.
  unfold app, route. cbn [fst].
  stock_cases crawler symbol; cbn [trace fst]; unfold prologue; cbn [List.app];
    (eexists; split; [reflexivity|]); intros res Hres;
    try discriminate; injection Hres as <-;
    rewrite ?Hcontent; cbn [format_content]; eexists; reflexivity.
Qed.

(** A price that is a lone surrogate: truthy, returned by the handler, and
    refused when the response is encoded. *)
Example run_surrogate :
  result (get_stock_price (returning (Some surrogate_price_content)) "msft") =
    Return (PyDict [("symbol", PyStr "MSFT"); ("price", PyStr (Reference.utf8 55296))]) /\
  has_surrogate (Reference.utf8 55296) = true /\
  response_of (app (returning (Some surrogate_price_content)) (GET_stock "msft")) =
    PlainTextResponse 500 "Internal Server Error".
Proof. repeat split; vm_compute; reflexivity. Qed.

(** An interrupt during the crawl: no [except] clause catches it, nothing
    more is logged, and the server answers. *)
Example run_interrupted :
  app (failing (KeyboardInterrupt "")) (GET_stock "msft") =
    ([LogInfo "Attempting to crawl: https://finance.yahoo.com/quote/MSFT/";
      Arun browser_config config "https://finance.yahoo.com/quote/MSFT/"],
     PlainTextResponse 500 "Internal Server Error").
Proof. vm_compute. reflexivity. Qed.
